(** * Wardrobe environment console: simulation and automation core

    Shallow embedding of the simulation tick, the automation effect, the
    manual toggle handler and the report service of [src/App.tsx] and
    [src/services/geminiService.ts].

    Numbers of the TypeScript source are modelled as rationals [Q]:
    the simulator's constants (0.1, 0.4, 1.2, ...) are taken exactly,
    floating-point rounding is not modelled.  Every value [Math.random()]
    produces is an explicit argument [r] of the tick, with [0 <= r < 1]. *)

From Stdlib Require Import ZArith QArith Qminmax Lqa Lia Bool List String.
Import ListNotations.
Open Scope Q_scope.

(** ** Data model ([src/types.ts]) *)

Record SensorData := mkSensorData {
  timestamp : Z;
  temperature : Q;
  humidity : Q;
  moldIndex : Q
}.

Record DeviceState := mkDeviceState {
  fan : bool;
  dehumidifier : bool;
  uvLight : bool;
  autoMode : bool
}.

Record Thresholds := mkThresholds {
  maxHumidity : Q;
  triggerUVPeriod : Q
}.

(** ** JavaScript numeric helpers *)

(** [a > b] on numbers, as a boolean. *)
Definition js_gt (a b : Q) : bool := negb (Qle_bool a b).

(** [a < b] on numbers, as a boolean. *)
Definition js_lt (a b : Q) : bool := negb (Qle_bool b a).

(** [Math.max] and [Math.min] on (non-NaN) numbers. *)
Definition Math_max (a b : Q) : Q := if Qle_bool a b then b else a.
Definition Math_min (a b : Q) : Q := if Qle_bool a b then a else b.

(** ** Environment simulator (the [setSensors] interval callback) *)

Module Simulator.

(** One tick of the interval callback.  [devices] is the device state the
    interval closure captured, [r1] and [r2] are the two [Math.random()]
    draws, [now] is [Date.now()]. *)
Definition tick (devices : DeviceState) (r1 r2 : Q) (now : Z)
    (prev : SensorData) : SensorData :=
  let newTemp := temperature prev in
  let newHum := humidity prev in
  let newMold := moldIndex prev in
  (* Natural Environmental drift *)
  let newTemp := newTemp + (r1 - (1#2)) * (1#10) in
  let newHum := newHum + (r2 - (1#2)) * (1#2) in
  (* Device Effects *)
  let '(newHum, newTemp) :=
    if fan devices then (newHum - (2#5), newTemp - (1#20))
    else (newHum, newTemp) in
  let '(newHum, newTemp) :=
    if dehumidifier devices then (newHum - (6#5), newTemp + (1#10))
    else (newHum, newTemp) in
  let '(newMold, newTemp) :=
    if uvLight devices then (newMold - 2, newTemp + (1#20))
    else
      let newMold := if js_gt newHum 70 then newMold + (1#2) else newMold in
      let newMold := if js_gt newHum 80 then newMold + 1 else newMold in
      (newMold, newTemp) in
  (* Constraints *)
  let newHum := Math_max 30 (Math_min 99 newHum) in
  let newMold := Math_max 0 (Math_min 100 newMold) in
  {| timestamp := now; temperature := newTemp;
     humidity := newHum; moldIndex := newMold |}.

(** JavaScript [xs.slice(-n)] for [n > 0]: the last [n] elements, or the
    whole array when it is shorter. *)
Definition slice_neg {A} (n : nat) (xs : list A) : list A :=
  skipn (List.length xs - n) xs.

(** [setHistory(h => [...h.slice(-50), newData])]. *)
Definition push_history (h : list SensorData) (newData : SensorData)
    : list SensorData :=
  slice_neg 50 h ++ [newData].

(** The history after a sequence of ticks producing [readings], oldest
    first. *)
Fixpoint run_history (h : list SensorData) (readings : list SensorData)
    : list SensorData :=
  match readings with
  | [] => h
  | d :: ds => run_history (push_history h d) ds
  end.

(** [generateInitialData]: twenty readings, 3000 ms apart; the random
    draws are the explicit arguments [rs] (three per reading). *)
Fixpoint generateInitialData_from (now : Z) (i : nat) (rs : list (Q * Q * Q))
    : list SensorData :=
  match i, rs with
  | S i', (a, b, c) :: rs' =>
      {| timestamp := (now - Z.of_nat i * 3000)%Z;
         temperature := 24 + a * 2;
         humidity := 50 + b * 10;
         moldIndex := 5 + c * 5 |} :: generateInitialData_from now i' rs'
  | _, _ => []
  end.

Definition generateInitialData (now : Z) (rs : list (Q * Q * Q))
    : list SensorData :=
  generateInitialData_from now 20 rs.

End Simulator.

(** ** Automation controller (the automation [useEffect]) *)

Module Controller.

(** The [setDevices(prev => ...)] updater: both sub-controllers evaluated
    against the current reading [sensors]; [prev] is returned when nothing
    changed. *)
Definition update (sensors : SensorData) (maxHum : Q) (prev : DeviceState)
    : DeviceState :=
  let next := prev in
  (* Humidity Control Logic *)
  let '(next, changed) :=
    if js_gt (humidity sensors) maxHum then
      if negb (fan prev) && negb (dehumidifier prev) then
        ({| fan := true; dehumidifier := true;
            uvLight := uvLight next; autoMode := autoMode next |}, true)
      else (next, false)
    else if js_lt (humidity sensors) (maxHum - 5) then
      if fan prev || dehumidifier prev then
        ({| fan := false; dehumidifier := false;
            uvLight := uvLight next; autoMode := autoMode next |}, true)
      else (next, false)
    else (next, false) in
  (* Mold Safety Logic *)
  let '(next, changed) :=
    if js_gt (moldIndex sensors) 40 && negb (uvLight prev) then
      ({| fan := fan next; dehumidifier := dehumidifier next;
          uvLight := true; autoMode := autoMode next |}, true)
    else if js_lt (moldIndex sensors) 5 && uvLight prev then
      ({| fan := fan next; dehumidifier := dehumidifier next;
          uvLight := false; autoMode := autoMode next |}, true)
    else (next, changed) in
  if changed then next else prev.

(** The effect body: [if (!devices.autoMode) return;] then the updater. *)
Definition automation_effect (sensors : SensorData) (thresholds : Thresholds)
    (devices : DeviceState) : DeviceState :=
  if negb (autoMode devices) then devices
  else update sensors (maxHumidity thresholds) devices.

End Controller.

(** ** Manual toggle handler ([toggleDevice]) *)

Module Manual.

(** [keyof DeviceState]. *)
Inductive DeviceKey := KFan | KDehumidifier | KUvLight | KAutoMode.

Definition is_autoMode (k : DeviceKey) : bool :=
  match k with KAutoMode => true | _ => false end.

Definition get (d : DeviceState) (k : DeviceKey) : bool :=
  match k with
  | KFan => fan d
  | KDehumidifier => dehumidifier d
  | KUvLight => uvLight d
  | KAutoMode => autoMode d
  end.

(** [{ ...prev, [device]: v }]. *)
Definition set (d : DeviceState) (k : DeviceKey) (v : bool) : DeviceState :=
  match k with
  | KFan => {| fan := v; dehumidifier := dehumidifier d;
               uvLight := uvLight d; autoMode := autoMode d |}
  | KDehumidifier => {| fan := fan d; dehumidifier := v;
               uvLight := uvLight d; autoMode := autoMode d |}
  | KUvLight => {| fan := fan d; dehumidifier := dehumidifier d;
               uvLight := v; autoMode := autoMode d |}
  | KAutoMode => {| fan := fan d; dehumidifier := dehumidifier d;
               uvLight := uvLight d; autoMode := v |}
  end.

(** The text of the [alert] raised on a rejected toggle. *)
Definition auto_mode_alert : string :=
  "请先关闭自动模式 (Auto Mode) 才能手动控制设备。".

(** [toggleDevice]: the new device state and the alerts shown. *)
Definition toggleDevice (devices : DeviceState) (device : DeviceKey)
    : DeviceState * list string :=
  if negb (is_autoMode device) && autoMode devices then
    (devices, [auto_mode_alert])
  else (set devices device (negb (get devices device)), []).

End Manual.

(** ** Report service ([analyzeWardrobeEnvironment]) *)

Module Report.

(** What a [throw] inside the service can carry. *)
Inductive Error := NetworkError | ServiceError (msg : string).

(** A computation that returns a value or throws. *)
Inductive Result (A : Type) := Ok (a : A) | Throw (e : Error).
Arguments Ok {A} a.
Arguments Throw {A} e.

Definition bind {A B} (m : Result A) (k : A -> Result B) : Result B :=
  match m with Ok a => k a | Throw e => Throw e end.

(** [try { body } catch (error) { handler }]. *)
Definition try_catch {A} (body : Result A) (handler : Error -> Result A)
    : Result A :=
  match body with Ok a => Ok a | Throw e => handler e end.

(** The numbers the prompt is built from; [p_avgHum] is [None] where the
    average is [NaN] (an empty history). *)
Record PromptData := mkPromptData {
  p_temperature : Q;
  p_humidity : Q;
  p_maxHumidity : Q;
  p_moldIndex : Q;
  p_avgHum : option Q
}.

(** The response of [ai.models.generateContent]; [text] may be undefined. *)
Record GenResponse := mkGenResponse { text : option string }.

Definition empty_text_fallback : string := "暂时无法生成分析报告。".
Definition failure_fallback : string := "连接 AI 服务失败，请检查网络设置。".

(** [recentHistory.reduce((acc, cur) => acc + cur.humidity, 0) /
    recentHistory.length]. *)
Definition avg_humidity (recent : list SensorData) : option Q :=
  match recent with
  | [] => None
  | _ => Some (fold_left (fun acc cur => acc + humidity cur) recent 0
               / inject_Z (Z.of_nat (List.length recent)))
  end.

Definition build_prompt (currentData : SensorData) (history : list SensorData)
    (thresholds : Thresholds) : PromptData :=
  let recentHistory := Simulator.slice_neg 20 history in
  {| p_temperature := temperature currentData;
     p_humidity := humidity currentData;
     p_maxHumidity := maxHumidity thresholds;
     p_moldIndex := moldIndex currentData;
     p_avgHum := avg_humidity recentHistory |}.

(** [response.text || "..."]. *)
Definition text_or_fallback (response : GenResponse) : string :=
  match text response with
  | Some s => if String.eqb s "" then empty_text_fallback else s
  | None => empty_text_fallback
  end.

(** The service, parameterised by the collaborator [generateContent]. *)
Definition analyzeWardrobeEnvironment
    (generateContent : PromptData -> Result GenResponse)
    (currentData : SensorData) (history : list SensorData)
    (thresholds : Thresholds) : Result string :=
  try_catch
    (let prompt := build_prompt currentData history thresholds in
     bind (generateContent prompt) (fun response =>
     Ok (text_or_fallback response)))
    (fun _ => Ok failure_fallback).

End Report.

(** ** The tick against the algorithm of the specification *)

(** The running values of the specification's tick. *)
Record Running := mkRunning { rT : Q; rH : Q; rM : Q }.

(** The tick written step by step from the specification: drifts [dT] and
    [dH], then ventilation, drying, sterilisation, passive mold growth,
    then the clamps. *)
Definition spec_step_drift (dT dH : Q) (s : Running) : Running :=
  mkRunning (rT s + dT) (rH s + dH) (rM s).
Definition spec_step_ventilation (on : bool) (s : Running) : Running :=
  if on then mkRunning (rT s - (1#20)) (rH s - (2#5)) (rM s) else s.
Definition spec_step_drying (on : bool) (s : Running) : Running :=
  if on then mkRunning (rT s + (1#10)) (rH s - (6#5)) (rM s) else s.
Definition spec_step_sterilization (on : bool) (s : Running) : Running :=
  if on then mkRunning (rT s + (1#20)) (rH s) (rM s - 2) else s.
Definition spec_step_growth (sterilization : bool) (s : Running) : Running :=
  if sterilization then s
  else
    let m1 := if Qlt_le_dec 70 (rH s) then rM s + (1#2) else rM s in
    let m2 := if Qlt_le_dec 80 (rH s) then m1 + 1 else m1 in
    mkRunning (rT s) (rH s) m2.
Definition spec_clamp (lo hi x : Q) : Q := Qmin hi (Qmax lo x).

Definition spec_tick (ventilation drying sterilization : bool) (dT dH : Q)
    (now : Z) (prev : SensorData) : SensorData :=
  let s := mkRunning (temperature prev) (humidity prev) (moldIndex prev) in
  let s := spec_step_drift dT dH s in
  let s := spec_step_ventilation ventilation s in
  let s := spec_step_drying drying s in
  let s := spec_step_sterilization sterilization s in
  let s := spec_step_growth sterilization s in
  {| timestamp := now; temperature := rT s;
     humidity := spec_clamp 30 99 (rH s);
     moldIndex := spec_clamp 0 100 (rM s) |}.

(** Concrete inputs. *)

Definition seed_history : list SensorData :=
  Simulator.generateInitialData 0 (repeat (0, 0, 0) 20).

Definition sample_reading : SensorData := mkSensorData 0 25 55 10.

(** ** Dashboard and history views ([renderDashboard], [renderHistory],
    the header) *)

Module View.

(** The [status] prop of [EnvironmentCard]. *)
Inductive CardStatus := Normal | Warning | Critical.

(** The humidity card: [sensors.humidity > thresholds.maxHumidity ?
    'warning' : 'normal']. *)
Definition humidity_status (sensors : SensorData) (thresholds : Thresholds)
    : CardStatus :=
  if js_gt (humidity sensors) (maxHumidity thresholds) then Warning else Normal.

(** The mold card: [sensors.moldIndex > 50 ? 'critical' : 'normal']. *)
Definition mold_status (sensors : SensorData) : CardStatus :=
  if js_gt (moldIndex sensors) 50 then Critical else Normal.

(** The rows of the log table: [history.slice(-10).reverse()]. *)
Definition log_rows (history : list SensorData) : list SensorData :=
  rev (Simulator.slice_neg 10 history).

End View.

(** ** The closed loop: interval tick, history, automation effect *)

Module Loop.

(** The state the component keeps between ticks. *)
Record State := mkState {
  sensors : SensorData;
  history : list SensorData;
  devices : DeviceState;
  thresholds : Thresholds
}.

(** One interval tick followed by the automation effect it triggers: the
    interval closure sees the current [devices] (the interval is re-created
    whenever [devices] changes), the updater also appends to the history,
    and the effect runs on the new [sensors]. *)
Definition step (r1 r2 : Q) (now : Z) (s : State) : State :=
  let newData := Simulator.tick (devices s) r1 r2 now (sensors s) in
  {| sensors := newData;
     history := Simulator.push_history (history s) newData;
     devices := Controller.automation_effect newData (thresholds s) (devices s);
     thresholds := thresholds s |}.

(** A run of ticks, each with its two random draws and its [Date.now()]. *)
Fixpoint run (draws : list (Q * Q * Z)) (s : State) : State :=
  match draws with
  | [] => s
  | (r1, r2, now) :: ds => run ds (step r1 r2 now s)
  end.

End Loop.

(** ** Numeric helpers *)

Lemma js_gt_spec a b : js_gt a b = true <-> b < a.
Proof.
  unfold js_gt. rewrite negb_true_iff. split; intro H.
  - destruct (Qlt_le_dec b a) as [|Hle]; [assumption|].
    apply Qle_bool_iff in Hle. congruence.
  - destruct (Qle_bool a b) eqn:E; [|reflexivity].
    apply Qle_bool_iff in E. lra.
Qed.

Lemma js_lt_spec a b : js_lt a b = true <-> a < b.
Proof. apply js_gt_spec. Qed.

Lemma js_gt_false a b : js_gt a b = false <-> a <= b.
Proof.
  unfold js_gt. rewrite negb_false_iff. apply Qle_bool_iff.
Qed.

Lemma js_lt_false a b : js_lt a b = false <-> b <= a.
Proof. apply js_gt_false. Qed.

Lemma Math_max_ge_l a b : a <= Math_max a b.
Proof.
  unfold Math_max. destruct (Qle_bool a b) eqn:E; [apply Qle_bool_iff in E|]; lra.
Qed.

Lemma Math_max_le a b c : a <= c -> b <= c -> Math_max a b <= c.
Proof. unfold Math_max. destruct (Qle_bool a b); auto. Qed.

Lemma Math_min_le_l a b : Math_min a b <= a.
Proof.
  unfold Math_min. destruct (Qle_bool a b) eqn:E; [lra|].
  destruct (Qlt_le_dec b a) as [|Hle]; [lra|].
  apply Qle_bool_iff in Hle. congruence.
Qed.

(** ** Small evaluations of the model *)

Example tick_fan_dehum :
  humidity (Simulator.tick (mkDeviceState true true false true) (1#2) (1#2) 0
              (mkSensorData 0 (49#2) 70 10)) == 342#5.
Proof. vm_compute. reflexivity. Qed.

Example controller_turns_on :
  Controller.automation_effect (mkSensorData 0 25 66 10) (mkThresholds 65 24)
    (mkDeviceState false false false true)
  = mkDeviceState true true false true.
Proof. reflexivity. Qed.

(** ** Proof automation for the controller *)

Ltac destruct_conds :=
  repeat match goal with
  | |- context [js_gt ?a ?b] =>
      let E := fresh "E" in destruct (js_gt a b) eqn:E
  | |- context [js_lt ?a ?b] =>
      let E := fresh "E" in destruct (js_lt a b) eqn:E
  | b : bool |- _ => destruct b
  end; cbn in *.

(** ** Simulator *)

Lemma clamp_bounds lo hi x : lo <= hi ->
  lo <= Math_max lo (Math_min hi x) <= hi.
Proof.
  intro H. split; [apply Math_max_ge_l|].
  apply Math_max_le; [assumption|apply Math_min_le_l].
Qed.

(** C1: every reading the tick produces has [30 <= humidity <= 99] and
    [0 <= moldIndex <= 100], for every previous reading, device state and
    pair of random draws (in particular for previous readings within these
    bounds); the temperature is the previous one plus drift and device
    effects, with no clamping. *)
Theorem tick_bounds (devices : DeviceState) (r1 r2 : Q) (now : Z)
    (prev : SensorData) :
  let n := Simulator.tick devices r1 r2 now prev in
  30 <= humidity n <= 99 /\ 0 <= moldIndex n <= 100 /\
  temperature n ==
    temperature prev + (r1 - (1#2)) * (1#10)
    - (if fan devices then 1#20 else 0)
    + (if dehumidifier devices then 1#10 else 0)
    + (if uvLight devices then 1#20 else 0).
Proof.
  unfold Simulator.tick.
  destruct devices as [[] [] [] am]; cbn;
    (split; [apply clamp_bounds; lra|
     split; [apply clamp_bounds; lra| ring]]).
Qed.

(** ** Controller *)

(** C4: with automation on and both fan and dehumidifier on, the
    controller keeps both on for every humidity in
    [[maxHumidity - 5, maxHumidity]], and turns both off exactly when the
    humidity is below [maxHumidity - 5]. *)
Theorem humidity_hysteresis (sensors : SensorData) (thresholds : Thresholds)
    (devices : DeviceState)
    (Hauto : autoMode devices = true) (Hfan : fan devices = true)
    (Hdeh : dehumidifier devices = true) :
  let next := Controller.automation_effect sensors thresholds devices in
  (maxHumidity thresholds - 5 <= humidity sensors <= maxHumidity thresholds ->
     fan next = true /\ dehumidifier next = true) /\
  (fan next = false /\ dehumidifier next = false <->
     humidity sensors < maxHumidity thresholds - 5).
Proof.
  destruct devices as [f d u a]; cbn in Hauto, Hfan, Hdeh; subst.
  unfold Controller.automation_effect, Controller.update; cbn.
  destruct (js_gt (humidity sensors) (maxHumidity thresholds)) eqn:Eg;
  destruct (js_lt (humidity sensors) (maxHumidity thresholds - 5)) eqn:El;
  [apply js_gt_spec in Eg; apply js_lt_spec in El; lra| | |];
  destruct (js_gt (moldIndex sensors) 40), (js_lt (moldIndex sensors) 5), u;
  cbn; rewrite ?js_gt_spec, ?js_gt_false, ?js_lt_spec, ?js_lt_false in *;
  (split; [intros; try lra; auto|split; intros; try lra; intuition congruence]).
Qed.

(** C5: with automation on, a mold index above 40 turns a UV light that was
    off on, a mold index below 5 turns a UV light that was on off, and a
    mold index in [[5, 40]] leaves the UV light as it was. *)
Theorem mold_control (sensors : SensorData) (thresholds : Thresholds)
    (devices : DeviceState) (Hauto : autoMode devices = true) :
  let next := Controller.automation_effect sensors thresholds devices in
  (40 < moldIndex sensors -> uvLight devices = false -> uvLight next = true) /\
  (moldIndex sensors < 5 -> uvLight devices = true -> uvLight next = false) /\
  (5 <= moldIndex sensors <= 40 -> uvLight next = uvLight devices).
Proof.
  destruct devices as [f d u a]; cbn in Hauto; subst.
  unfold Controller.automation_effect, Controller.update; cbn.
  destruct (js_gt (moldIndex sensors) 40) eqn:Eg;
  destruct (js_lt (moldIndex sensors) 5) eqn:El;
  rewrite ?js_gt_spec, ?js_gt_false, ?js_lt_spec, ?js_lt_false in *;
  [lra| | |];
  destruct (js_gt (humidity sensors) (maxHumidity thresholds)),
    (js_lt (humidity sensors) (maxHumidity thresholds - 5)), f, d, u;
  cbn; repeat split; intros; try lra; congruence.
Qed.

(** The devices the controller leaves alone: its result agrees with its
    input on [autoMode]. *)
Lemma update_autoMode sensors maxHum prev :
  autoMode (Controller.update sensors maxHum prev) = autoMode prev.
Proof.
  destruct prev as [f d u a].
  unfold Controller.update; cbn.
  destruct (js_gt (humidity sensors) maxHum),
    (js_lt (humidity sensors) (maxHum - 5)),
    (js_gt (moldIndex sensors) 40), (js_lt (moldIndex sensors) 5), f, d, u;
  reflexivity.
Qed.

(** C7: with automation off the controller does not run: the device state
    after the automation step is the one before it, for every reading and
    every thresholds. *)
Theorem automation_off_frame (sensors : SensorData) (thresholds : Thresholds)
    (devices : DeviceState) (Hoff : autoMode devices = false) :
  Controller.automation_effect sensors thresholds devices = devices.
Proof.
  unfold Controller.automation_effect. rewrite Hoff. reflexivity.
Qed.

(** C10: the automation step never changes [autoMode]; only [fan],
    [dehumidifier] and [uvLight] can differ between its input and its
    output. *)
Theorem automation_preserves_autoMode (sensors : SensorData)
    (thresholds : Thresholds) (devices : DeviceState) :
  autoMode (Controller.automation_effect sensors thresholds devices)
  = autoMode devices.
Proof.
  unfold Controller.automation_effect.
  destruct (negb (autoMode devices)); [reflexivity|apply update_autoMode].
Qed.

(** ** Manual toggle *)

(** C6: with automation on, toggling [fan], [dehumidifier] or [uvLight]
    leaves the whole device state unchanged and raises the alert asking to
    turn automation off; toggling [autoMode] always flips it, leaves the
    other devices as they are and raises no alert. *)
Theorem toggle_gate (devices : DeviceState) :
  (autoMode devices = true ->
   forall k, k <> Manual.KAutoMode ->
   Manual.toggleDevice devices k = (devices, [Manual.auto_mode_alert])) /\
  Manual.toggleDevice devices Manual.KAutoMode =
    ({| fan := fan devices; dehumidifier := dehumidifier devices;
        uvLight := uvLight devices; autoMode := negb (autoMode devices) |},
     []).
Proof.
  split.
  - intros Hauto k Hk. unfold Manual.toggleDevice. rewrite Hauto.
    destruct k; [reflexivity..|congruence].
  - reflexivity.
Qed.

(** C3 (the claim as stated fails): with automation on and the humidity
    above the threshold, a state with the fan on and the dehumidifier off
    is left as it is, so the controller does not turn both on. *)
Lemma humidity_on_mixed_state_counterexample :
  let devices := mkDeviceState true false false true in
  let next := Controller.automation_effect (mkSensorData 0 25 70 10)
                (mkThresholds 65 24) devices in
  70 > 65 /\ autoMode devices = true /\
  (fan next, dehumidifier next) = (true, false).
Proof. vm_compute. repeat split; discriminate. Qed.

(** C3 (as amended): with automation on and the humidity above
    [maxHumidity], fan and dehumidifier both off are turned both on; when
    either of them is already on, both are left as they were.  In every
    case the controller never turns a state where fan and dehumidifier
    agree into one where they differ. *)
Theorem humidity_on_amended (sensors : SensorData) (thresholds : Thresholds)
    (devices : DeviceState) :
  let next := Controller.automation_effect sensors thresholds devices in
  (autoMode devices = true -> humidity sensors > maxHumidity thresholds ->
     (fan devices = false -> dehumidifier devices = false ->
        fan next = true /\ dehumidifier next = true) /\
     (fan devices = true \/ dehumidifier devices = true ->
        fan next = fan devices /\ dehumidifier next = dehumidifier devices)) /\
  (fan devices = dehumidifier devices -> fan next = dehumidifier next).
Proof.
  destruct devices as [f d u a].
  unfold Controller.automation_effect, Controller.update; cbn.
  destruct a; cbn; [|split; [discriminate|auto]].
  destruct (js_gt (humidity sensors) (maxHumidity thresholds)) eqn:Eg;
  rewrite ?js_gt_spec, ?js_gt_false in Eg;
  destruct (js_lt (humidity sensors) (maxHumidity thresholds - 5)),
    (js_gt (moldIndex sensors) 40), (js_lt (moldIndex sensors) 5), f, d, u;
  cbn; repeat split; intros; try lra; intuition congruence.
Qed.

(** ** Report service *)

(** C9: when the collaborator throws on the prompt built from the inputs,
    [analyzeWardrobeEnvironment] returns the fixed failure text and does
    not throw, for every reading, history and thresholds. *)
Theorem analyze_failure_fallback
    (generateContent : Report.PromptData -> Report.Result Report.GenResponse)
    (currentData : SensorData) (history : list SensorData)
    (thresholds : Thresholds) (e : Report.Error)
    (Hfail : generateContent
               (Report.build_prompt currentData history thresholds)
             = Report.Throw e) :
  Report.analyzeWardrobeEnvironment generateContent currentData history
    thresholds = Report.Ok Report.failure_fallback.
Proof.
  unfold Report.analyzeWardrobeEnvironment, Report.try_catch, Report.bind.
  cbv zeta. rewrite Hfail. reflexivity.
Qed.

Lemma Math_clamp_spec lo hi x : lo <= hi ->
  Math_max lo (Math_min hi x) == spec_clamp lo hi x.
Proof.
  intro H. unfold Math_max, Math_min, spec_clamp.
  destruct (Qle_bool hi x) eqn:E1; [apply Qle_bool_iff in E1|].
  - destruct (Qle_bool lo hi) eqn:E2; [|apply Qle_bool_iff in H; congruence].
    rewrite Q.max_r, Q.min_l; lra.
  - assert (x < hi).
    { destruct (Qlt_le_dec x hi) as [|Hle]; [assumption|].
      apply Qle_bool_iff in Hle. congruence. }
    destruct (Qle_bool lo x) eqn:E2; [apply Qle_bool_iff in E2|].
    + rewrite Q.max_r, Q.min_r; lra.
    + assert (x < lo).
      { destruct (Qlt_le_dec x lo) as [|Hle]; [assumption|].
        apply Qle_bool_iff in Hle. congruence. }
      rewrite Q.max_l, Q.min_r; lra.
Qed.

Lemma js_gt_dec a b :
  js_gt a b = if Qlt_le_dec b a then true else false.
Proof.
  destruct (Qlt_le_dec b a) as [H|H].
  - apply js_gt_spec. exact H.
  - apply js_gt_false. exact H.
Qed.

(** C8: for random draws [0 <= r1, r2 < 1] the drifts the tick adds lie in
    [[-0.05, 0.05)] for the temperature and [[-0.25, 0.25)] for the
    humidity, and the tick is the specification's step-by-step algorithm
    (drift, ventilation, drying, sterilisation, growth only without
    sterilisation tested on the running humidity, then clamps) with these
    drifts and the device flags. *)
Theorem tick_refines_spec (devices : DeviceState) (r1 r2 : Q) (now : Z)
    (prev : SensorData) (Hr1 : 0 <= r1 < 1) (Hr2 : 0 <= r2 < 1) :
  let dT := (r1 - (1#2)) * (1#10) in
  let dH := (r2 - (1#2)) * (1#2) in
  let n := Simulator.tick devices r1 r2 now prev in
  let m := spec_tick (fan devices) (dehumidifier devices) (uvLight devices)
             dT dH now prev in
  (-(1#20) <= dT < 1#20) /\ (-(1#4) <= dH < 1#4) /\
  timestamp n = timestamp m /\ temperature n == temperature m /\
  humidity n == humidity m /\ moldIndex n == moldIndex m.
Proof.
  cbv zeta. split; [lra|]. split; [lra|].
  destruct devices as [[] [] [] am];
  unfold Simulator.tick, spec_tick, spec_step_drift, spec_step_ventilation,
    spec_step_drying, spec_step_sterilization, spec_step_growth;
  cbn - [Math_max Math_min spec_clamp js_gt Qlt_le_dec];
  rewrite ?js_gt_dec;
  repeat match goal with
  | |- context [Qlt_le_dec ?a ?b] => destruct (Qlt_le_dec a b)
  end;
  repeat split; try reflexivity;
  apply Math_clamp_spec; lra.
Qed.

(** ** History buffer *)

Open Scope nat_scope.

Lemma push_history_length h d :
  List.length (Simulator.push_history h d) = Nat.min (List.length h) 50 + 1.
Proof.
  unfold Simulator.push_history, Simulator.slice_neg.
  rewrite length_app, length_skipn. cbn. lia.
Qed.

Lemma run_history_length h rs : rs <> [] ->
  List.length (Simulator.run_history h rs)
  = Nat.min (List.length h + List.length rs) 51.
Proof.
  revert h. induction rs as [|d ds IH]; intros h Hne; [congruence|].
  cbn [Simulator.run_history List.length].
  destruct ds as [|d' ds'].
  - cbn. rewrite push_history_length. lia.
  - rewrite IH by discriminate. rewrite push_history_length.
    cbn [List.length]. lia.
Qed.

Lemma push_history_slice h d :
  Simulator.push_history h d = Simulator.slice_neg 51 (h ++ [d]).
Proof.
  unfold Simulator.push_history, Simulator.slice_neg.
  rewrite length_app, skipn_app. cbn [List.length].
  replace (List.length h + 1 - 51) with (List.length h - 50) by lia.
  replace (List.length h - 50 - List.length h) with 0 by lia.
  reflexivity.
Qed.

Lemma slice_neg_slice_neg {A} n (xs ys : list A) :
  Simulator.slice_neg n (Simulator.slice_neg n xs ++ ys)
  = Simulator.slice_neg n (xs ++ ys).
Proof.
  unfold Simulator.slice_neg.
  rewrite !length_app, length_skipn.
  destruct (Compare_dec.le_gt_dec (List.length xs) n) as [Hle|Hgt].
  - replace (List.length xs - n) with 0 by lia.
    replace (List.length xs - 0) with (List.length xs) by lia. reflexivity.
  - rewrite !skipn_app, skipn_skipn, length_skipn.
    f_equal; f_equal; lia.
Qed.

Lemma run_history_slice h rs : rs <> [] ->
  Simulator.run_history h rs = Simulator.slice_neg 51 (h ++ rs).
Proof.
  revert h. induction rs as [|d ds IH]; intros h Hne; [congruence|].
  cbn [Simulator.run_history].
  destruct ds as [|d' ds'].
  - apply push_history_slice.
  - rewrite IH by discriminate. rewrite push_history_slice.
    rewrite slice_neg_slice_neg, <- app_assoc. reflexivity.
Qed.

(** C2 (the code keeps 51 readings): from a history of 20 readings, after
    60 ticks the history holds 51 entries, the 51 most recent readings in
    chronological order; [h.slice(-50)] keeps 50 old entries before the new
    one is appended. *)
Theorem history_after_60_ticks (seed readings : list SensorData)
    (Hseed : List.length seed = 20%nat)
    (Hreadings : List.length readings = 60%nat) :
  List.length (Simulator.run_history seed readings) = 51%nat /\
  Simulator.run_history seed readings
  = Simulator.slice_neg 51 (seed ++ readings).
Proof.
  assert (Hne : readings <> []) by (intro E; subst; discriminate).
  split.
  - rewrite run_history_length by exact Hne. rewrite Hseed, Hreadings.
    reflexivity.
  - apply run_history_slice. exact Hne.
Qed.

Open Scope Q_scope.

(** ** Witnesses: the theorems applied at concrete inputs *)

Lemma history_after_60_ticks_witness :
  List.length seed_history = 20%nat /\
  List.length (repeat sample_reading 60) = 60%nat /\
  (List.length (Simulator.run_history seed_history (repeat sample_reading 60))
     = 51%nat /\
   Simulator.run_history seed_history (repeat sample_reading 60)
   = Simulator.slice_neg 51 (seed_history ++ repeat sample_reading 60)).
Proof.
  refine (conj _ (conj _ (history_after_60_ticks _ _ _ _))); reflexivity.
Defined.

Lemma humidity_hysteresis_witness :
  let d := mkDeviceState true true false true in
  autoMode d = true /\ fan d = true /\ dehumidifier d = true /\
  ((65 - 5 <= 62 <= 65 ->
      fan (Controller.automation_effect (mkSensorData 0 25 62 10)
             (mkThresholds 65 24) d) = true /\
      dehumidifier (Controller.automation_effect (mkSensorData 0 25 62 10)
             (mkThresholds 65 24) d) = true) /\
   (fan (Controller.automation_effect (mkSensorData 0 25 62 10)
           (mkThresholds 65 24) d) = false /\
    dehumidifier (Controller.automation_effect (mkSensorData 0 25 62 10)
           (mkThresholds 65 24) d) = false <-> 62 < 65 - 5)).
Proof.
  refine (conj eq_refl (conj eq_refl (conj eq_refl
    (humidity_hysteresis (mkSensorData 0 25 62 10) (mkThresholds 65 24)
       (mkDeviceState true true false true) eq_refl eq_refl eq_refl)))).
Defined.

Lemma mold_control_witness :
  let d := mkDeviceState false false false true in
  let s := mkSensorData 0 25 55 41 in
  let next := Controller.automation_effect s (mkThresholds 65 24) d in
  autoMode d = true /\
  ((40 < 41 -> uvLight d = false -> uvLight next = true) /\
   (41 < 5 -> uvLight d = true -> uvLight next = false) /\
   (5 <= 41 <= 40 -> uvLight next = uvLight d)).
Proof.
  refine (conj eq_refl
    (mold_control (mkSensorData 0 25 55 41) (mkThresholds 65 24)
       (mkDeviceState false false false true) eq_refl)).
Defined.

Lemma automation_off_frame_witness :
  let d := mkDeviceState true false true false in
  autoMode d = false /\
  Controller.automation_effect (mkSensorData 0 25 90 80) (mkThresholds 65 24) d
  = d.
Proof.
  refine (conj eq_refl
    (automation_off_frame (mkSensorData 0 25 90 80) (mkThresholds 65 24)
       (mkDeviceState true false true false) eq_refl)).
Defined.

Lemma toggle_gate_witness :
  let d := mkDeviceState false false false true in
  autoMode d = true /\ Manual.KFan <> Manual.KAutoMode /\
  Manual.toggleDevice d Manual.KFan = (d, [Manual.auto_mode_alert]).
Proof.
  split; [reflexivity|]. split; [discriminate|].
  apply (proj1 (toggle_gate (mkDeviceState false false false true)));
    [reflexivity|discriminate].
Defined.

Lemma humidity_on_amended_witness :
  let d := mkDeviceState false false false true in
  let s := mkSensorData 0 25 70 10 in
  let t := mkThresholds 65 24 in
  autoMode d = true /\ humidity s > maxHumidity t /\
  fan d = false /\ dehumidifier d = false /\
  fan (Controller.automation_effect s t d) = true /\
  dehumidifier (Controller.automation_effect s t d) = true.
Proof.
  do 4 (split; [reflexivity|]).
  apply (proj1 (proj1 (humidity_on_amended (mkSensorData 0 25 70 10)
    (mkThresholds 65 24) (mkDeviceState false false false true))
    eq_refl eq_refl) eq_refl eq_refl).
Defined.

Lemma tick_refines_spec_witness :
  0 <= 1#2 < 1 /\ 0 <= 3#4 < 1 /\
  let d := mkDeviceState true false false true in
  let p := mkSensorData 0 25 72 10 in
  let dT := ((1#2) - (1#2)) * (1#10) in
  let dH := ((3#4) - (1#2)) * (1#2) in
  let n := Simulator.tick d (1#2) (3#4) 7 p in
  let m := spec_tick true false false dT dH 7 p in
  (-(1#20) <= dT < 1#20) /\ (-(1#4) <= dH < 1#4) /\
  timestamp n = timestamp m /\ temperature n == temperature m /\
  humidity n == humidity m /\ moldIndex n == moldIndex m.
Proof.
  split; [split; vm_compute; first [reflexivity|discriminate]|].
  split; [split; vm_compute; first [reflexivity|discriminate]|].
  apply (tick_refines_spec (mkDeviceState true false false true) (1#2) (3#4)
    7 (mkSensorData 0 25 72 10));
    split; vm_compute; first [reflexivity|discriminate].
Defined.

Lemma analyze_failure_fallback_witness :
  let gen := fun _ : Report.PromptData =>
    @Report.Throw Report.GenResponse Report.NetworkError in
  gen (Report.build_prompt sample_reading seed_history (mkThresholds 65 24))
    = Report.Throw Report.NetworkError /\
  Report.analyzeWardrobeEnvironment gen sample_reading seed_history
    (mkThresholds 65 24) = Report.Ok Report.failure_fallback.
Proof.
  split; [reflexivity|].
  apply (analyze_failure_fallback _ sample_reading seed_history
    (mkThresholds 65 24) Report.NetworkError). reflexivity.
Defined.

(** ** Further properties of the code *)

(** Seed history *)



(** History and log table *)

Lemma run_history_snoc h ds d :
  Simulator.run_history h (ds ++ [d])
  = Simulator.push_history (Simulator.run_history h ds) d.
Proof.
  revert h. induction ds as [|x ds IH]; intro h; [reflexivity|].
  cbn. apply IH.
Qed.

(** After one tick or more, whatever the starting history, the history
    holds at most 51 readings and its last entry is the latest reading. *)
Theorem history_bounded_last (h readings : list SensorData) (d0 : SensorData)
    (Hne : readings <> []) :
  (List.length (Simulator.run_history h readings) <= 51)%nat /\
  last (Simulator.run_history h readings) d0 = last readings d0.
Proof.
  split.
  - rewrite run_history_length by exact Hne. lia.
  - destruct (exists_last Hne) as (ds & d & ->).
    rewrite run_history_snoc. unfold Simulator.push_history.
    rewrite !last_last. reflexivity.
Qed.

(** The log table shows [min(length history, 10)] rows, the first one
    being the latest reading. *)
Theorem log_rows_latest_first (h : list SensorData) (d : SensorData) :
  List.length (View.log_rows h) = Nat.min (List.length h) 10 /\
  hd_error (View.log_rows (h ++ [d])) = Some d.
Proof.
  unfold View.log_rows, Simulator.slice_neg. split.
  - rewrite length_rev, length_skipn. lia.
  - rewrite length_app, skipn_app. cbn [List.length].
    replace (List.length h + 1 - 10 - List.length h)%nat with 0%nat by lia.
    cbn [skipn]. rewrite rev_app_distr. reflexivity.
Qed.

(** Controller *)

Ltac controller_cases sensors maxHum :=
  destruct (js_gt (humidity sensors) maxHum) eqn:Eh1;
  destruct (js_lt (humidity sensors) (maxHum - 5)) eqn:Eh2;
  destruct (js_gt (moldIndex sensors) 40) eqn:Em1;
  destruct (js_lt (moldIndex sensors) 5) eqn:Em2;
  rewrite ?js_gt_spec, ?js_gt_false, ?js_lt_spec, ?js_lt_false in *.

(** The automation step is idempotent: evaluating it a second time on the
    same reading and thresholds changes nothing (steady state, no
    chatter). *)
Theorem automation_idempotent (sensors : SensorData) (thresholds : Thresholds)
    (devices : DeviceState) :
  Controller.automation_effect sensors thresholds
    (Controller.automation_effect sensors thresholds devices)
  = Controller.automation_effect sensors thresholds devices.
Proof.
  destruct devices as [f d u a].
  unfold Controller.automation_effect, Controller.update; cbn.
  destruct a; [|reflexivity]. cbn.
  controller_cases sensors (maxHumidity thresholds); try lra;
  destruct f, d, u; cbn; rewrite ?Eh1, ?Eh2, ?Em1, ?Em2; reflexivity.
Qed.

(** The controller switches fan or dehumidifier on only when the humidity is
    above [maxHumidity], switches them off only when it is below
    [maxHumidity - 5], switches the UV light on only when the mold index is
    above 40 and off only when it is below 5. *)
Theorem automation_switch_conditions (sensors : SensorData)
    (thresholds : Thresholds) (devices : DeviceState) :
  let next := Controller.automation_effect sensors thresholds devices in
  (fan devices = false -> fan next = true ->
     maxHumidity thresholds < humidity sensors) /\
  (dehumidifier devices = false -> dehumidifier next = true ->
     maxHumidity thresholds < humidity sensors) /\
  (fan devices = true -> fan next = false ->
     humidity sensors < maxHumidity thresholds - 5) /\
  (dehumidifier devices = true -> dehumidifier next = false ->
     humidity sensors < maxHumidity thresholds - 5) /\
  (uvLight devices = false -> uvLight next = true -> 40 < moldIndex sensors) /\
  (uvLight devices = true -> uvLight next = false -> moldIndex sensors < 5).
Proof.
  destruct devices as [f d u a].
  unfold Controller.automation_effect, Controller.update; cbn.
  destruct a; cbn; [|repeat split; intros; congruence].
  controller_cases sensors (maxHumidity thresholds);
  destruct f, d, u; cbn; repeat split; intros; try discriminate;
  first [assumption | lra].
Qed.

(** With automation on, whenever the mold card shows [critical] the UV
    light is on after the automation step. *)
Theorem mold_critical_uv_on (sensors : SensorData) (thresholds : Thresholds)
    (devices : DeviceState) (Hauto : autoMode devices = true)
    (Hcrit : View.mold_status sensors = View.Critical) :
  uvLight (Controller.automation_effect sensors thresholds devices) = true.
Proof.
  unfold View.mold_status in Hcrit.
  destruct (js_gt (moldIndex sensors) 50) eqn:E; [|discriminate].
  apply js_gt_spec in E.
  destruct devices as [f d u a]; cbn in Hauto; subst.
  unfold Controller.automation_effect, Controller.update; cbn.
  controller_cases sensors (maxHumidity thresholds); try lra;
  destruct f, d, u; reflexivity.
Qed.

(** Manual toggle *)

(** With automation off, a toggle flips exactly the chosen device (the
    others, [autoMode] included, keep their values) and raises no alert. *)
Theorem manual_toggle_flips_one (devices : DeviceState)
    (Hmanual : autoMode devices = false) (k : Manual.DeviceKey) :
  let '(next, alerts) := Manual.toggleDevice devices k in
  alerts = [] /\ Manual.get next k = negb (Manual.get devices k) /\
  (forall k', k' <> k -> Manual.get next k' = Manual.get devices k').
Proof.
  unfold Manual.toggleDevice. rewrite Hmanual, andb_false_r.
  split; [reflexivity|].
  destruct devices as [f d u a]; cbn in Hmanual; subst.
  destruct k; (split; [reflexivity|]); intros [] Hk; cbn;
  solve [reflexivity | congruence].
Qed.

(** A toggle that is accepted (automation off, or the [autoMode] switch
    itself) is undone by the same toggle: toggling twice gives back the
    device state. *)
Theorem toggle_twice_identity (devices : DeviceState) (k : Manual.DeviceKey)
    (Hallowed : autoMode devices = false \/ k = Manual.KAutoMode) :
  fst (Manual.toggleDevice (fst (Manual.toggleDevice devices k)) k) = devices.
Proof.
  destruct devices as [f d u a].
  destruct Hallowed as [H|H]; cbn in H; subst;
  [destruct k|]; destruct f, d, u; try destruct a; reflexivity.
Qed.

(** Report service *)

(** [analyzeWardrobeEnvironment] never throws: whatever the collaborator
    does, it returns a text, which is the collaborator's non-empty text,
    the fixed empty-answer text or the fixed failure text. *)
Theorem analyze_never_throws
    (generateContent : Report.PromptData -> Report.Result Report.GenResponse)
    (currentData : SensorData) (history : list SensorData)
    (thresholds : Thresholds) :
  exists s,
    Report.analyzeWardrobeEnvironment generateContent currentData history
      thresholds = Report.Ok s /\
    ((exists resp, generateContent
                     (Report.build_prompt currentData history thresholds)
                   = Report.Ok resp /\
                   Report.text resp = Some s /\ s <> ""%string) \/
     s = Report.empty_text_fallback \/ s = Report.failure_fallback).
Proof.
  unfold Report.analyzeWardrobeEnvironment, Report.try_catch, Report.bind.
  cbv zeta.
  destruct (generateContent (Report.build_prompt currentData history thresholds))
    as [resp|e] eqn:E.
  - exists (Report.text_or_fallback resp). split; [reflexivity|].
    unfold Report.text_or_fallback.
    destruct (Report.text resp) as [s|] eqn:Et; [|right; left; reflexivity].
    destruct (String.eqb s "") eqn:Es; [right; left; reflexivity|].
    left. exists resp. split; [reflexivity|]. split; [exact Et|].
    intro Hs. subst. discriminate.
  - exists Report.failure_fallback. split; [reflexivity|].
    right; right; reflexivity.
Qed.

(** The prompt only uses the last 20 readings of the history: older
    readings do not change it. *)
Theorem prompt_uses_last_20 (currentData : SensorData)
    (older recent : list SensorData) (thresholds : Thresholds)
    (Hrecent : (20 <= List.length recent)%nat) :
  Report.build_prompt currentData (older ++ recent) thresholds
  = Report.build_prompt currentData recent thresholds.
Proof.
  unfold Report.build_prompt, Simulator.slice_neg.
  rewrite length_app, skipn_app, skipn_all2 by lia.
  replace (List.length older + List.length recent - 20 - List.length older)%nat
    with (List.length recent - 20)%nat by lia.
  reflexivity.
Qed.

Lemma fold_humidity_bounds (l : list SensorData) (a0 : Q) :
  Forall (fun d => 30 <= humidity d <= 99) l ->
  a0 + 30 * inject_Z (Z.of_nat (List.length l))
    <= fold_left (fun acc cur => acc + humidity cur) l a0
    <= a0 + 99 * inject_Z (Z.of_nat (List.length l)).
Proof.
  revert a0. induction l as [|x l IH]; intros a0 Hall.
  - cbn [fold_left List.length]. change (inject_Z (Z.of_nat 0)) with 0. lra.
  - inversion Hall as [|y ys Hx Hl]; subst.
    cbn [fold_left List.length].
    rewrite Nat2Z.inj_succ, <- Z.add_1_r, inject_Z_plus.
    change (inject_Z 1) with 1.
    specialize (IH (a0 + humidity x) Hl). lra.
Qed.

Lemma Forall_slice_neg {A} (P : A -> Prop) n (l : list A) :
  Forall P l -> Forall P (Simulator.slice_neg n l).
Proof.
  intro H. unfold Simulator.slice_neg.
  rewrite <- (firstn_skipn (List.length l - n) l) in H.
  apply Forall_app in H. apply H.
Qed.

(** The average humidity put in the prompt is missing ([NaN]) exactly for
    an empty history; when every reading of the history has its humidity in
    [[30, 99]] the average lies in [[30, 99]] too. *)
Theorem prompt_avg_humidity (currentData : SensorData)
    (history : list SensorData) (thresholds : Thresholds) :
  (Report.p_avgHum (Report.build_prompt currentData history thresholds) = None
   <-> history = []) /\
  (Forall (fun d => 30 <= humidity d <= 99) history -> history <> [] ->
   exists a, Report.p_avgHum (Report.build_prompt currentData history thresholds)
             = Some a /\ 30 <= a <= 99).
Proof.
  unfold Report.build_prompt, Report.avg_humidity; cbn [Report.p_avgHum].
  assert (Hne : forall h : list SensorData, h <> [] ->
            Simulator.slice_neg 20 h <> []).
  { intros h Hh E. apply (f_equal (@List.length _)) in E.
    unfold Simulator.slice_neg in E. rewrite length_skipn in E.
    destruct h; [congruence|]. cbn [List.length] in E. lia. }
  split.
  - split; intro H.
    + destruct history as [|x h]; [reflexivity|].
      destruct (Simulator.slice_neg 20 (x :: h)) eqn:E; [|discriminate].
      exfalso. exact (Hne (x :: h) ltac:(discriminate) E).
    + subst. reflexivity.
  - intros Hall Hh.
    pose proof (Forall_slice_neg _ 20 _ Hall) as Hs.
    pose proof (Hne _ Hh) as Hsne.
    destruct (Simulator.slice_neg 20 history) as [|x l] eqn:E; [congruence|].
    eexists; split; [reflexivity|].
    pose proof (fold_humidity_bounds (x :: l) 0 Hs) as Hb.
    set (n := inject_Z (Z.of_nat (List.length (x :: l)))) in *.
    assert (Hn : 0 < n).
    { unfold n. cbn [List.length]. rewrite Nat2Z.inj_succ.
      unfold Qlt. cbn. lia. }
    split; [apply Qle_shift_div_l|apply Qle_shift_div_r]; try exact Hn; lra.
Qed.

(** Simulator: effect of the devices over one tick *)

Lemma Qle_bool_false a b : Qle_bool a b = false -> b < a.
Proof.
  intro E. destruct (Qlt_le_dec b a) as [|Hle]; [assumption|].
  apply Qle_bool_iff in Hle. congruence.
Qed.

Lemma clamp_cases lo hi x : lo <= hi ->
  (Math_max lo (Math_min hi x) = lo /\ x <= lo) \/
  (Math_max lo (Math_min hi x) = hi /\ hi <= x) \/
  (Math_max lo (Math_min hi x) = x /\ lo <= x <= hi).
Proof.
  intro H. unfold Math_max, Math_min.
  destruct (Qle_bool hi x) eqn:E1.
  - apply Qle_bool_iff in E1.
    assert (E : Qle_bool lo hi = true) by (apply Qle_bool_iff; exact H).
    rewrite E. right; left. split; [reflexivity|exact E1].
  - apply Qle_bool_false in E1.
    destruct (Qle_bool lo x) eqn:E2.
    + apply Qle_bool_iff in E2. right; right. split; [reflexivity|lra].
    + apply Qle_bool_false in E2. left. split; [reflexivity|lra].
Qed.



Ltac clamp_mold :=
  match goal with
  | |- context [Math_max 0 (Math_min 100 ?x)] =>
      destruct (clamp_cases 0 100 x ltac:(lra)) as [[-> ?]|[[-> ?]|[-> ?]]]
  end.

(** From a reading within bounds: with the UV light on the mold index
    falls by 2 over a tick or reaches the floor of 0; with it off the mold
    index never falls and grows by at most 1.5. *)
Theorem tick_mold_uv (devices : DeviceState) (r1 r2 : Q) (now : Z)
    (prev : SensorData) (Hm : 0 <= moldIndex prev <= 100) :
  let m := moldIndex (Simulator.tick devices r1 r2 now prev) in
  (uvLight devices = true -> m = 0 \/ m == moldIndex prev - 2) /\
  (uvLight devices = false ->
     moldIndex prev <= m <= moldIndex prev + (3#2)).
Proof.
  destruct devices as [[] [] [] a]; unfold Simulator.tick;
  cbn -[Math_max Math_min js_gt];
  repeat match goal with
  | |- context [js_gt ?a ?b] => destruct (js_gt a b)
  end;
  cbn -[Math_max Math_min];
  clamp_mold; split; intros; try discriminate;
  first [lra | left; reflexivity | right; lra | exfalso; lra].
Qed.

(** Closed loop *)

Lemma step_sensor_bounds r1 r2 now s :
  let n := Loop.sensors (Loop.step r1 r2 now s) in
  30 <= humidity n <= 99 /\ 0 <= moldIndex n <= 100.
Proof.
  destruct s as [sn h [f d u a] t]. unfold Loop.step, Simulator.tick.
  cbn -[Math_max Math_min js_gt].
  destruct f, d, u; cbn -[Math_max Math_min js_gt];
  (split; apply clamp_bounds; lra).
Qed.

(** Over any run of the loop: after at least one tick the current reading
    is within [[30, 99]] for humidity and [[0, 100]] for the mold index;
    the thresholds and the [autoMode] flag never change; a history of at
    most 51 entries stays so; and in manual mode the devices never
    change. *)
Theorem loop_invariants (draws : list (Q * Q * Z)) (s : Loop.State) :
  let s' := Loop.run draws s in
  (draws <> [] -> 30 <= humidity (Loop.sensors s') <= 99 /\
                  0 <= moldIndex (Loop.sensors s') <= 100) /\
  Loop.thresholds s' = Loop.thresholds s /\
  autoMode (Loop.devices s') = autoMode (Loop.devices s) /\
  ((List.length (Loop.history s) <= 51)%nat ->
     (List.length (Loop.history s') <= 51)%nat) /\
  (autoMode (Loop.devices s) = false -> Loop.devices s' = Loop.devices s).
Proof.
  revert s. induction draws as [|[[r1 r2] now] ds IH]; intro s.
  - cbn. repeat split; auto; congruence.
  - cbn [Loop.run]. destruct (IH (Loop.step r1 r2 now s)) as (H1 & H2 & H3 & H4 & H5).
    assert (Ea : autoMode (Loop.devices (Loop.step r1 r2 now s))
                 = autoMode (Loop.devices s)).
    { unfold Loop.step, Controller.automation_effect; cbn [Loop.devices].
      destruct (negb (autoMode (Loop.devices s))); [reflexivity|].
      apply update_autoMode. }
    split; [|split; [|split; [|split]]].
    + intros _. destruct ds as [|x ds'].
      * apply step_sensor_bounds.
      * apply H1. discriminate.
    + rewrite H2. reflexivity.
    + rewrite H3. exact Ea.
    + intro Hl. apply H4. unfold Loop.step; cbn [Loop.history].
      rewrite push_history_length. lia.
    + intro Hoff. rewrite H5 by (rewrite Ea; exact Hoff).
      unfold Loop.step, Controller.automation_effect; cbn [Loop.devices].
      rewrite Hoff. reflexivity.
Qed.

(** ** Witnesses of the further properties *)


Lemma history_bounded_last_witness :
  [sample_reading] <> [] /\
  (List.length (Simulator.run_history seed_history [sample_reading]) <= 51)%nat /\
  last (Simulator.run_history seed_history [sample_reading]) sample_reading
  = last [sample_reading] sample_reading.
Proof.
  split; [discriminate|].
  apply history_bounded_last. discriminate.
Defined.

Lemma automation_switch_conditions_witness :
  let d := mkDeviceState false false false true in
  let s := mkSensorData 0 25 70 41 in
  let t := mkThresholds 65 24 in
  fan d = false /\ fan (Controller.automation_effect s t d) = true /\
  maxHumidity t < humidity s.
Proof.
  split; [reflexivity|]. split; [reflexivity|].
  apply (proj1 (automation_switch_conditions (mkSensorData 0 25 70 41)
    (mkThresholds 65 24) (mkDeviceState false false false true)));
  reflexivity.
Defined.

Lemma mold_critical_uv_on_witness :
  let d := mkDeviceState false false false true in
  let s := mkSensorData 0 25 55 60 in
  autoMode d = true /\ View.mold_status s = View.Critical /\
  uvLight (Controller.automation_effect s (mkThresholds 65 24) d) = true.
Proof.
  split; [reflexivity|]. split; [reflexivity|].
  apply mold_critical_uv_on; reflexivity.
Defined.

Lemma manual_toggle_flips_one_witness :
  let d := mkDeviceState false true false false in
  autoMode d = false /\
  (let '(next, alerts) := Manual.toggleDevice d Manual.KUvLight in
   alerts = [] /\ Manual.get next Manual.KUvLight
                  = negb (Manual.get d Manual.KUvLight) /\
   (forall k', k' <> Manual.KUvLight -> Manual.get next k' = Manual.get d k')).
Proof.
  split; [reflexivity|].
  apply (manual_toggle_flips_one (mkDeviceState false true false false)).
  reflexivity.
Defined.

Lemma toggle_twice_identity_witness :
  let d := mkDeviceState true false true true in
  (autoMode d = false \/ Manual.KAutoMode = Manual.KAutoMode) /\
  fst (Manual.toggleDevice (fst (Manual.toggleDevice d Manual.KAutoMode))
         Manual.KAutoMode) = d.
Proof.
  split; [right; reflexivity|].
  apply toggle_twice_identity. right; reflexivity.
Defined.

Lemma prompt_uses_last_20_witness :
  (20 <= List.length seed_history)%nat /\
  Report.build_prompt sample_reading ([sample_reading] ++ seed_history)
    (mkThresholds 65 24)
  = Report.build_prompt sample_reading seed_history (mkThresholds 65 24).
Proof.
  split; [vm_compute; lia|].
  apply prompt_uses_last_20. vm_compute; lia.
Defined.

Lemma prompt_avg_humidity_witness :
  Forall (fun d => 30 <= humidity d <= 99) [sample_reading] /\
  [sample_reading] <> [] /\
  exists a, Report.p_avgHum (Report.build_prompt sample_reading
              [sample_reading] (mkThresholds 65 24)) = Some a /\ 30 <= a <= 99.
Proof.
  assert (Hf : Forall (fun d => 30 <= humidity d <= 99) [sample_reading]).
  { repeat constructor; vm_compute; first [reflexivity|discriminate]. }
  split; [exact Hf|]. split; [discriminate|].
  apply (proj2 (prompt_avg_humidity sample_reading [sample_reading]
    (mkThresholds 65 24))); [exact Hf|discriminate].
Defined.


Lemma tick_mold_uv_witness :
  let d := mkDeviceState false false true true in
  0 <= moldIndex sample_reading <= 100 /\
  (moldIndex (Simulator.tick d (1#2) (1#2) 0 sample_reading) = 0 \/
   moldIndex (Simulator.tick d (1#2) (1#2) 0 sample_reading)
     == moldIndex sample_reading - 2).
Proof.
  split; [split; vm_compute; discriminate|].
  apply (tick_mold_uv (mkDeviceState false false true true)
    (1#2) (1#2) 0 sample_reading);
    first [split; vm_compute; discriminate | reflexivity].
Defined.

Lemma loop_invariants_witness :
  let s := Loop.mkState sample_reading seed_history
             (mkDeviceState false false false false) (mkThresholds 65 24) in
  let draws := [((1#2), (1#2), 2000%Z); ((1#4), (3#4), 4000%Z)] in
  draws <> [] /\ autoMode (Loop.devices s) = false /\
  Loop.devices (Loop.run draws s) = Loop.devices s.
Proof.
  split; [discriminate|]. split; [reflexivity|].
  apply (loop_invariants [((1#2), (1#2), 2000%Z); ((1#4), (3#4), 4000%Z)]
    (Loop.mkState sample_reading seed_history
       (mkDeviceState false false false false) (mkThresholds 65 24))).
  reflexivity.
Defined.

Lemma analyze_never_throws_witness :
  exists s,
    Report.analyzeWardrobeEnvironment
      (fun _ => Report.Ok (Report.mkGenResponse (Some "ok"%string)))
      sample_reading seed_history (mkThresholds 65 24) = Report.Ok s /\
    ((exists resp,
        (fun _ : Report.PromptData =>
           @Report.Ok Report.GenResponse (Report.mkGenResponse (Some "ok"%string)))
          (Report.build_prompt sample_reading seed_history (mkThresholds 65 24))
        = Report.Ok resp /\ Report.text resp = Some s /\ s <> ""%string) \/
     s = Report.empty_text_fallback \/ s = Report.failure_fallback).
Proof. apply analyze_never_throws. Defined.
